(** * examples/visualization/3d_to_2d.py

    The example script converts 3D electrode positions to a 2D image.  It is a
    module-level Python script: a sequence of calls into MNE-Python, numpy and
    matplotlib, with a little numpy glue in between.

    The embedding has three layers.

    - Python and numpy values and the glue the script evaluates itself
      (f-strings over [range], dictionary subscripts, [np.vstack],
      [ndarray.max(axis=1)], the pixel arithmetic of lines 130-131).
      float64 numbers are rationals [Q]: rounding, infinities and NaN are
      outside the model.
    - The script as a program [Prog]: a tree of library calls whose
      continuations receive what the library returned.  A call may raise;
      [exec] relates the script to every trace of answers any library could
      give, so theorems over [exec] hold whatever the library does.
    - A reference model of the library objects the script touches
      ([Mne.handler]), used where a claim speaks about what the library
      computes and to exhibit complete executions. *)

From Stdlib Require Import ZArith QArith Qabs Lqa DecimalString Eqdep.
From stdpp Require Import base option list strings gmap.

(** ** Python values *)

(** A raised exception: its class name and its message. *)
Record Exn := mkExn { exc_class : string; exc_msg : string }.

Definition KeyError (key : string) : Exn := mkExn "KeyError" key.
Definition ValueError (msg : string) : Exn := mkExn "ValueError" msg.
Definition IndexError (msg : string) : Exn := mkExn "IndexError" msg.

(** The result of evaluating an expression: an exception or a value. *)
Definition Res (A : Type) : Type := Exn + A.

Definition res_bind {A B} (r : Res A) (f : A -> Res B) : Res B :=
  match r with
  | inl e => inl e
  | inr a => f a
  end.

(** Python floats. *)
Definition float : Type := Q.

(** [float(n)] for a non-negative int [n]. *)
Definition float_of_int (n : nat) : float := inject_Z (Z.of_nat n).

(** [str(i)], as the f-string [f"G{i}"] formats its field. *)
Definition str (i : Z) : string := NilZero.string_of_int (Z.to_int i).

(** [range(a, b)]. *)
Definition range (a b : Z) : list Z := seqZ a (b - a).

(** A [pathlib.Path]: its components.  [p / name] appends one component (the
    right operands in the script are plain relative names). *)
Definition Path : Type := list string.

Definition path_div (p : Path) (name : string) : Path := p ++ [name].

(** A list comprehension [[f(a) for a in l]]: elements are evaluated left to
    right and the first exception ends the evaluation. *)
Fixpoint list_comp {A B} (f : A -> Res B) (l : list A) : Res (list B) :=
  match l with
  | [] => inr []
  | a :: l' =>
      match f a with
      | inl e => inl e
      | inr b =>
          match list_comp f l' with
          | inl e => inl e
          | inr bs => inr (b :: bs)
          end
      end
  end.

(** [d[key]] on a dict. *)
Definition getitem {V} (d : gmap string V) (key : string) : Res V :=
  match d !! key with
  | Some v => inr v
  | None => inl (KeyError key)
  end.

(** [t[i]] on a tuple. *)
Definition tuple_getitem (t : list nat) (i : nat) : Res nat :=
  match t !! i with
  | Some n => inr n
  | None => inl (IndexError "tuple index out of range")
  end.

(** ** numpy glue *)

(** A 2D pixel position, an array of shape (2,). *)
Definition Pos2 : Type := (float * float)%type.

(** An array of shape (n, t): its n rows, each of length t (an array with no
    row does not record t). *)
Definition Array2 : Type := list (list float).

(** An image array: its shape tuple and its pixel buffer. *)
Record Image := mkImage { shape : list nat; pixels : list float }.

(** [np.vstack(rows)] of arrays of shape (2,): the (n, 2) array of the rows;
    numpy refuses an empty sequence. *)
Definition vstack (rows : list Pos2) : Res (list Pos2) :=
  match rows with
  | [] => inl (ValueError "need at least one array to concatenate")
  | _ => inr rows
  end.

(** The larger of two floats. *)
Definition fmax (a b : float) : float := if Qle_bool a b then b else a.

(** The maximum of one row; numpy refuses a row of length zero. *)
Definition row_max (row : list float) : Res float :=
  match row with
  | [] => inl (ValueError "zero-size array to reduction operation maximum which has no identity")
  | v :: row' => inr (fold_left fmax row' v)
  end.

(** [a.max(axis=1)]: the maximum of every row. *)
Definition max_axis1 (a : Array2) : Res (list float) := list_comp row_max a.

(** [xy_pts.T] unpacked by [*]: the column of x and the column of y. *)
Definition transpose2 (pts : list Pos2) : list float * list float :=
  (fmap fst pts, fmap snd pts).

(** One row of [Layout.pos]: x, y, width, height. *)
Record Box := mkBox { box_x : float; box_y : float; box_w : float; box_h : float }.

(** A [mne.channels.Layout] as the script reads it. *)
Record Layout := mkLayout { lay_names : list string; pos : list Box }.

(** Lines 130-131 on one layout point. *)
Definition x_pixel (width : nat) (pos_x : float) : float :=
  (pos_x * float_of_int width)%Q.

Definition y_pixel (height : nat) (pos_y : float) : float :=
  ((1 - pos_y) * float_of_int height)%Q.

(** Lines 130-131:
    [x = lt.pos[:, 0] * float(im.shape[1])]
    [y = (1 - lt.pos[:, 1]) * float(im.shape[0])]. *)
Definition layout_to_pixels (lt : Layout) (im : Image)
  : Res (list float * list float) :=
  res_bind (tuple_getitem (shape im) 1) (fun width =>
  let x := fmap (x_pixel width) (fmap box_x (pos lt)) in
  res_bind (tuple_getitem (shape im) 0) (fun height =>
  let y := fmap (y_pixel height) (fmap box_y (pos lt)) in
  inr (x, y))).

(** ** Library objects and calls *)

(** Objects owned by the libraries are held by reference. *)
Inductive Kind :=
| KRaw | KInfo | KMontage | KTransform | KFigure3D
| KFigure | KAxes | KCollection | KColorbar | KClickable.

Record Ref (k : Kind) := mkRef { addr : nat }.
Arguments mkRef {k} addr.
Arguments addr {k} r.

(** Keyword arguments of [Axes.scatter] the script uses. *)
Record ScatterOpts := mkScatterOpts {
  sc_c : option (list float);
  sc_s : Z;
  sc_cmap : option string;
  sc_color : option string
}.

(** The entry points of MNE-Python and matplotlib the file names, each with
    its arguments and the type of what it returns.  Attribute reads on library
    objects ([raw.info], [raw.ch_names], [cbar.ax]) are calls too.
    [MnePackageDir] is [Path(dirname(mne.__file__))]. *)
Inductive LibCall : Type -> Type :=
| DataPath : LibCall Path
| MnePackageDir : LibCall Path
| ReadRawFif (fname : Path) : LibCall (Ref KRaw)
| PickChannels (raw : Ref KRaw) (ch_names : list string) : LibCall (Ref KRaw)
| GetMontage (raw : Ref KRaw) : LibCall (Ref KMontage)
| EstimateHeadMriT (subject : string) (subjects_dir : Path) : LibCall (Ref KTransform)
| ApplyTrans (montage : Ref KMontage) (trans : Ref KTransform) : LibCall unit
| RawInfo (raw : Ref KRaw) : LibCall (Ref KInfo)
| PlotAlignment (info : Ref KInfo) (trans : Ref KTransform) (subject : string)
    (subjects_dir : Path) (surfaces : list (string * float)) : LibCall (Ref KFigure3D)
| Set3dView (figure : Ref KFigure3D) (azimuth elevation : Z) : LibCall unit
| SnapshotBrainMontage (fig : Ref KFigure3D) (montage : Ref KMontage)
  : LibCall (gmap string Pos2 * Image)
| RawChNames (raw : Ref KRaw) : LibCall (list string)
| LoadData (raw : Ref KRaw) : LibCall (Ref KRaw)
| Filter (raw : Ref KRaw) (l_freq h_freq : Z) : LibCall (Ref KRaw)
| ApplyHilbert (raw : Ref KRaw) (envelope : bool) : LibCall (Ref KRaw)
| GetData (raw : Ref KRaw) : LibCall Array2
| Subplots (figsize : option (Z * Z)) : LibCall (Ref KFigure * Ref KAxes)
| Imshow (ax : Ref KAxes) (im : Image) : LibCall unit
| Scatter (ax : Ref KAxes) (x y : list float) (opts : ScatterOpts) : LibCall (Ref KCollection)
| Colorbar (fig : Ref KFigure) (mappable : Ref KCollection) : LibCall (Ref KColorbar)
| ColorbarAx (cbar : Ref KColorbar) : LibCall (Ref KAxes)
| SetYlabel (ax : Ref KAxes) (label : string) : LibCall unit
| SetAxisOff (ax : Ref KAxes) : LibCall unit
| TightLayout (fig : Ref KFigure) : LibCall unit
| ReadLayout (fname : Path) (scale : bool) : LibCall Layout
(* named by the file in commented-out lines only *)
| Savefig (fig : Ref KFigure) (fname : string) : LibCall unit
| Imread (fname : string) : LibCall Image
| ClickableImage (im : Image) : LibCall (Ref KClickable)
| PlotClicks (click : Ref KClickable) : LibCall unit
| ToLayout (click : Ref KClickable) : LibCall Layout
| LayoutSave (lt : Layout) (fname : Path) : LibCall unit.

(** The Python name of an entry point. *)
Definition call_name {X} (c : LibCall X) : string :=
  match c with
  | DataPath => "mne.datasets.misc.data_path"
  | MnePackageDir => "mne.__file__"
  | ReadRawFif _ => "read_raw_fif"
  | PickChannels _ _ => "Raw.pick_channels"
  | GetMontage _ => "Raw.get_montage"
  | EstimateHeadMriT _ _ => "mne.coreg.estimate_head_mri_t"
  | ApplyTrans _ _ => "DigMontage.apply_trans"
  | RawInfo _ => "Raw.info"
  | PlotAlignment _ _ _ _ _ => "plot_alignment"
  | Set3dView _ _ _ => "set_3d_view"
  | SnapshotBrainMontage _ _ => "snapshot_brain_montage"
  | RawChNames _ => "Raw.ch_names"
  | LoadData _ => "Raw.load_data"
  | Filter _ _ _ => "Raw.filter"
  | ApplyHilbert _ _ => "Raw.apply_hilbert"
  | GetData _ => "Raw.get_data"
  | Subplots _ => "plt.subplots"
  | Imshow _ _ => "Axes.imshow"
  | Scatter _ _ _ _ => "Axes.scatter"
  | Colorbar _ _ => "Figure.colorbar"
  | ColorbarAx _ => "Colorbar.ax"
  | SetYlabel _ _ => "Axes.set_ylabel"
  | SetAxisOff _ => "Axes.set_axis_off"
  | TightLayout _ => "Figure.tight_layout"
  | ReadLayout _ _ => "mne.channels.read_layout"
  | Savefig _ _ => "Figure.savefig"
  | Imread _ => "plt.imread"
  | ClickableImage _ => "ClickableImage"
  | PlotClicks _ => "ClickableImage.plot_clicks"
  | ToLayout _ => "ClickableImage.to_layout"
  | LayoutSave _ _ => "Layout.save"
  end.


(** The file a call is asked to write, when it is asked to write one. *)
Definition file_written {X} (c : LibCall X) : option Path :=
  match c with
  | Savefig _ fname => Some [fname]
  | LayoutSave _ fname => Some fname
  | _ => None
  end.

(** ** Programs over the library *)

(** A program either returns, raises, calls the library and continues with
    what the call returned, or runs a body under an [except] clause.  The
    script uses the first three only; [Try] is Python's [try]/[except]: with
    it, that a program has no handler is a property of the program and not of
    the language. *)
Inductive Prog (A : Type) : Type :=
| Ret (a : A)
| Raise (e : Exn)
| Call {X : Type} (c : LibCall X) (k : X -> Prog A)
| Try {B : Type} (body : Prog B) (handler : Exn -> Prog B) (k : B -> Prog A).
Arguments Ret {A} a.
Arguments Raise {A} e.
Arguments Call {A X} c k.
Arguments Try {A B} body handler k.

Fixpoint bind {A B} (p : Prog A) (f : A -> Prog B) : Prog B :=
  match p with
  | Ret a => f a
  | Raise e => Raise e
  | Call c k => Call c (fun x => bind (k x) f)
  | Try body handler k => Try body handler (fun b => bind (k b) f)
  end.

#[export] Instance prog_ret : MRet Prog := @Ret.
#[export] Instance prog_bind : MBind Prog := fun A B f p => bind p f.

(** One library call. *)
Definition call {X} (c : LibCall X) : Prog X := Call c Ret.

(** An expression the script evaluates itself. *)
Definition lift {A} (r : Res A) : Prog A :=
  match r with
  | inl e => Raise e
  | inr a => Ret a
  end.

(** How a program ends. *)
Inductive Outcome (A : Type) : Type :=
| Done (a : A)
| Raised (e : Exn).
Arguments Done {A} a.
Arguments Raised {A} e.

(** One call and what the library answered: an exception or a value. *)
Inductive Event : Type :=
| Ev {X : Type} (c : LibCall X) (r : Res X).

(** [exec p tr o]: the program [p] ends in [o] after the calls and answers
    [tr].  Answers are unconstrained: every behaviour of every library is an
    execution. *)
Fixpoint exec {A} (p : Prog A) : list Event -> Outcome A -> Prop :=
  match p with
  | Ret a => fun tr o => tr = [] /\ o = Done a
  | Raise e => fun tr o => tr = [] /\ o = Raised e
  | Call c k => fun tr o =>
      (exists e, tr = [Ev c (inl e)] /\ o = Raised e) \/
      (exists x tr', tr = Ev c (inr x) :: tr' /\ exec (k x) tr' o)
  | Try body handler k => fun tr o =>
      exists tr1 ob, exec body tr1 ob /\
        match ob with
        | Done b => exists tr2, tr = tr1 ++ tr2 /\ exec (k b) tr2 o
        | Raised e =>
            exists tr2 oh, exec (handler e) tr2 oh /\
              match oh with
              | Done b => exists tr3, tr = tr1 ++ tr2 ++ tr3 /\ exec (k b) tr3 o
              | Raised e' => tr = tr1 ++ tr2 /\ o = Raised e'
              end
        end
  end.

(** A program with no [except] clause anywhere. *)
Fixpoint handler_free {A} (p : Prog A) : Prop :=
  match p with
  | Ret _ => True
  | Raise _ => True
  | Call _ k => forall x, handler_free (k x)
  | Try _ _ _ => False
  end.

(** What a trace says about the calls made. *)
Definition event_name (ev : Event) : string :=
  match ev with Ev c _ => call_name c end.


Definition event_written (ev : Event) : option Path :=
  match ev with Ev c _ => file_written c end.


Definition call_names (tr : list Event) : list string := fmap event_name tr.
Definition files_written (tr : list Event) : list Path := omap event_written tr.

(** A library as a state machine: each call answers and moves the state. *)
Definition Handler (S : Type) : Type :=
  forall X, LibCall X -> S -> Res X * S.

(** Running a program against a library, from a state; the log pairs every
    event with the state the call was made in. *)
Fixpoint run {S A} (h : Handler S) (p : Prog A) (s : S)
  : Outcome A * list (Event * S) * S :=
  match p with
  | Ret a => (Done a, [], s)
  | Raise e => (Raised e, [], s)
  | Call c k =>
      match h _ c s with
      | (inl e, s') => (Raised e, [(Ev c (inl e), s)], s')
      | (inr x, s') =>
          let '(o, log, s'') := run h (k x) s' in
          (o, (Ev c (inr x), s) :: log, s'')
      end
  | Try body handler k =>
      match run h body s with
      | (Done b, log1, s1) =>
          let '(o, log2, s2) := run h (k b) s1 in (o, log1 ++ log2, s2)
      | (Raised e, log1, s1) =>
          match run h (handler e) s1 with
          | (Done b, log2, s2) =>
              let '(o, log3, s3) := run h (k b) s2 in (o, log1 ++ log2 ++ log3, s3)
          | (Raised e', log2, s2) => (Raised e', log1 ++ log2, s2)
          end
      end
  end.

(** ** The script *)

(** Line 52: [[f"G{i}" for i in range(1, 257)]]. *)
Definition grid_names : list string :=
  fmap (fun i => "G" +:+ str i) (range 1 257).

(** The arrays the script leaves in its globals. *)
Record Outputs := mkOutputs {
  out_xy_pts : list Pos2;
  out_beta_power : list float;
  out_x : list float;
  out_y : list float
}.

(** Lines 36-136, statement by statement; the numbers are the lines of the
    file. *)
Definition script : Prog Outputs :=
  (* 36-38 *)
  misc_path ← call DataPath;
  let subjects_dir := path_div misc_path "ecog" in
  let ecog_data_fname := path_div subjects_dir "sample_ecog_ieeg.fif" in
  (* 41-42 *)
  mne_dir ← call MnePackageDir;
  let layout_path := path_div (path_div mne_dir "data") "image" in
  let layout_name := "custom_layout.lout" in
  (* 51-52 *)
  raw ← call (ReadRawFif ecog_data_fname);
  _ ← call (PickChannels raw grid_names);
  (* 58-60 *)
  montage ← call (GetMontage raw);
  trans ← call (EstimateHeadMriT "sample_ecog" subjects_dir);
  _ ← call (ApplyTrans montage trans);
  (* 71-79 *)
  info ← call (RawInfo raw);
  fig ← call (PlotAlignment info trans "sample_ecog" subjects_dir [("pial", 9 # 10)]);
  _ ← call (Set3dView fig 20 80);
  '(xy, im) ← call (SnapshotBrainMontage fig montage);
  (* 82 *)
  ch_names ← call (RawChNames raw);
  xy_pts ← lift (res_bind (list_comp (getitem xy) ch_names) vstack);
  (* 85-87 *)
  _ ← call (LoadData raw);
  filtered ← call (Filter raw 20 30);
  envelope ← call (ApplyHilbert filtered true);
  beta_power ← call (GetData envelope);
  beta_power ← lift (max_axis1 beta_power);
  (* 90-95 *)
  '(fig2, ax) ← call (Subplots (Some (10, 10)%Z));
  _ ← call (Imshow ax im);
  cmap ← call (Scatter ax (transpose2 xy_pts).1 (transpose2 xy_pts).2
                 (mkScatterOpts (Some beta_power) 100 (Some "coolwarm") None));
  cbar ← call (Colorbar fig2 cmap);
  cbar_ax ← call (ColorbarAx cbar);
  _ ← call (SetYlabel cbar_ax "Beta Power");
  _ ← call (SetAxisOff ax);
  (* 129-131 *)
  lt ← call (ReadLayout (path_div layout_path layout_name) false);
  '(x, y) ← lift (layout_to_pixels lt im);
  (* 132-136 *)
  '(fig, ax) ← call (Subplots None);
  _ ← call (Imshow ax im);
  _ ← call (Scatter ax x y (mkScatterOpts None 80 None (Some "r")));
  _ ← call (TightLayout fig);
  _ ← call (SetAxisOff ax);
  mret (mkOutputs xy_pts beta_power x y).

(** ** A reference model of the library *)

Module Mne.

(** A 3D sensor position. *)
Definition Pos3 : Type := (float * float * float)%type.

(** One recording channel of a FIF file: its name, its position in head
    space, its samples over time. *)
Record Channel := mkChannel {
  ch_name : string;
  ch_loc : Pos3;
  ch_signal : list float
}.

(** Modelled from the spec: the montage of [mne.channels.DigMontage], whose
    code is not in the sources.  The glossary has it as a mapping from
    recording-channel names to their spatial sensor positions. *)
Definition Montage : Type := list (string * Pos3).

(** The numerical routines of the library, left as they are: parameters. *)
Record Numerics := mkNumerics {
  Transform : Type;
  estimate : string -> Path -> Transform;
  apply_pt : Transform -> Pos3 -> Pos3;
  band_pass : Z -> Z -> list float -> list float;
  hilbert : bool -> list float -> list float;
  project : option (Z * Z) -> Pos3 -> Pos2;
  render : option (Z * Z) -> Image
}.

Section Model.

Variable N : Numerics.

(** The disk and the objects the library has created so far.  A reference is
    an index into the list of objects of its kind. *)
Record State := mkState {
  misc_dir : Path;
  package_dir : Path;
  fif_files : Path -> option (list Channel);
  layout_files : Path -> option Layout;
  raws : list (list Channel);
  montages : list Montage;
  transforms : list (Transform N);
  views : list (option (Z * Z));
  n_artists : nat
}.

(** A fresh interpreter over a disk: no object exists yet. *)
Definition boot (misc package : Path) (fif : Path -> option (list Channel))
    (layouts : Path -> option Layout) : State :=
  mkState misc package fif layouts [] [] [] [] 0.

Definition FileNotFoundError : Exn := mkExn "FileNotFoundError" "No such file".
Definition ReferenceError : Exn := mkExn "ReferenceError" "no such object".
Definition NotImplementedError : Exn := mkExn "NotImplementedError" "interactive".

Definition set_raws (s : State) (v : list (list Channel)) : State :=
  mkState (misc_dir s) (package_dir s) (fif_files s) (layout_files s)
    v (montages s) (transforms s) (views s) (n_artists s).

Definition set_montages (s : State) (v : list Montage) : State :=
  mkState (misc_dir s) (package_dir s) (fif_files s) (layout_files s)
    (raws s) v (transforms s) (views s) (n_artists s).

Definition set_transforms (s : State) (v : list (Transform N)) : State :=
  mkState (misc_dir s) (package_dir s) (fif_files s) (layout_files s)
    (raws s) (montages s) v (views s) (n_artists s).

Definition set_views (s : State) (v : list (option (Z * Z))) : State :=
  mkState (misc_dir s) (package_dir s) (fif_files s) (layout_files s)
    (raws s) (montages s) (transforms s) v (n_artists s).

Definition new_artist (s : State) : State :=
  mkState (misc_dir s) (package_dir s) (fif_files s) (layout_files s)
    (raws s) (montages s) (transforms s) (views s) (S (n_artists s)).

(** A method that changes the recording in place and returns it. *)
Definition on_raw (s : State) (raw : Ref KRaw)
    (f : list Channel -> list Channel) : Res (Ref KRaw) * State :=
  match raws s !! addr raw with
  | None => (inl ReferenceError, s)
  | Some chs => (inr raw, set_raws s (<[addr raw := f chs]> (raws s)))
  end.

(** A method that reads the recording. *)
Definition of_raw {X} (s : State) (raw : Ref KRaw)
    (f : list Channel -> X) : Res X * State :=
  match raws s !! addr raw with
  | None => (inl ReferenceError, s)
  | Some chs => (inr (f chs), s)
  end.

Definition set_signal (f : list float -> list float) (c : Channel) : Channel :=
  mkChannel (ch_name c) (ch_loc c) (f (ch_signal c)).

(** Modelled from the spec: [Raw.pick_channels], whose code is not in the
    sources; the script's comment has it pick the named grid, here the
    channels of the recording whose names are listed, in recording order. *)
Definition pick (names : list string) (chs : list Channel) : list Channel :=
  filter (fun c => ch_name c ∈ names) chs.

(** Modelled from the spec: [Raw.get_montage], whose code is not in the
    sources: the names and head-space positions of the recording's channels. *)
Definition montage_of (chs : list Channel) : Montage :=
  fmap (fun c => (ch_name c, ch_loc c)) chs.

(** Modelled from the spec: [DigMontage.apply_trans], whose code is not in
    the sources: the coordinate transform applied to every position. *)
Definition transformed (t : Transform N) (m : Montage) : Montage :=
  fmap (fun np => (np.1, apply_pt N t np.2)) m.

(** Modelled from the spec: the positions [snapshot_brain_montage] returns,
    whose code is not in the sources: every montage position projected onto
    the image plane of the figure's view. *)
Definition snapshot (view : option (Z * Z)) (m : Montage) : gmap string Pos2 :=
  list_to_map (fmap (fun np => (np.1, project N view np.2)) m).

(** Modelled from the spec: what each entry point does to the objects above;
    the library's code is not in the sources.  Drawing calls change nothing
    the script can read back; interactive click capture is not modelled. *)
Definition handler : Handler State := fun X c =>
  match c in LibCall X return State -> Res X * State with
  | DataPath => fun s => (inr (misc_dir s), s)
  | MnePackageDir => fun s => (inr (package_dir s), s)
  | ReadRawFif fname => fun s =>
      match fif_files s fname with
      | None => (inl FileNotFoundError, s)
      | Some chs => (inr (mkRef (length (raws s))), set_raws s (raws s ++ [chs]))
      end
  | PickChannels raw names => fun s => on_raw s raw (pick names)
  | GetMontage raw => fun s =>
      match raws s !! addr raw with
      | None => (inl ReferenceError, s)
      | Some chs =>
          (inr (mkRef (length (montages s))),
           set_montages s (montages s ++ [montage_of chs]))
      end
  | EstimateHeadMriT subject subjects_dir => fun s =>
      (inr (mkRef (length (transforms s))),
       set_transforms s (transforms s ++ [estimate N subject subjects_dir]))
  | ApplyTrans montage trans => fun s =>
      match montages s !! addr montage, transforms s !! addr trans with
      | Some m, Some t =>
          (inr tt, set_montages s (<[addr montage := transformed t m]> (montages s)))
      | _, _ => (inl ReferenceError, s)
      end
  | RawInfo raw => fun s => (inr (mkRef (addr raw)), s)
  | PlotAlignment info trans subject subjects_dir surfaces => fun s =>
      (inr (mkRef (length (views s))), set_views s (views s ++ [None]))
  | Set3dView figure azimuth elevation => fun s =>
      match views s !! addr figure with
      | None => (inl ReferenceError, s)
      | Some _ =>
          (inr tt, set_views s (<[addr figure := Some (azimuth, elevation)]> (views s)))
      end
  | SnapshotBrainMontage fig montage => fun s =>
      match views s !! addr fig, montages s !! addr montage with
      | Some view, Some m => (inr (snapshot view m, render N view), s)
      | _, _ => (inl ReferenceError, s)
      end
  | RawChNames raw => fun s => of_raw s raw (fmap ch_name)
  | LoadData raw => fun s => on_raw s raw id
  | Filter raw l_freq h_freq => fun s =>
      on_raw s raw (fmap (set_signal (band_pass N l_freq h_freq)))
  | ApplyHilbert raw envelope => fun s =>
      on_raw s raw (fmap (set_signal (hilbert N envelope)))
  | GetData raw => fun s => of_raw s raw (fmap ch_signal)
  | Subplots figsize => fun s =>
      (inr (mkRef (n_artists s), mkRef (S (n_artists s))), new_artist (new_artist s))
  | Imshow ax im => fun s => (inr tt, s)
  | Scatter ax x y opts => fun s => (inr (mkRef (n_artists s)), new_artist s)
  | Colorbar fig mappable => fun s =>
      (inr (mkRef (n_artists s)), new_artist (new_artist s))
  | ColorbarAx cbar => fun s => (inr (mkRef (S (addr cbar))), s)
  | SetYlabel ax label => fun s => (inr tt, s)
  | SetAxisOff ax => fun s => (inr tt, s)
  | TightLayout fig => fun s => (inr tt, s)
  | ReadLayout fname scale => fun s =>
      match layout_files s fname with
      | None => (inl FileNotFoundError, s)
      | Some lt => (inr lt, s)
      end
  | Savefig fig fname => fun s => (inr tt, s)
  | Imread fname => fun s => (inl FileNotFoundError, s)
  | ClickableImage im => fun s => (inl NotImplementedError, s)
  | PlotClicks click => fun s => (inl NotImplementedError, s)
  | ToLayout click => fun s => (inl NotImplementedError, s)
  | LayoutSave lt fname => fun s => (inr tt, s)
  end.

End Model.

Arguments misc_dir {N} s.
Arguments package_dir {N} s.
Arguments fif_files {N} s.
Arguments layout_files {N} s.
Arguments raws {N} s.
Arguments montages {N} s.
Arguments transforms {N} s.
Arguments views {N} s.
Arguments boot N misc package fif layouts /.
Arguments set_raws N s v /.
Arguments set_montages N s v /.
Arguments set_transforms N s v /.
Arguments set_views N s v /.
Arguments new_artist N s /.

End Mne.

(** ** A small recording on disk, for complete executions *)

Module Demo.

Definition shift (t p : Mne.Pos3) : Mne.Pos3 :=
  (p.1.1 + t.1.1, p.1.2 + t.1.2, p.2 + t.2)%Q.

Definition numerics : Mne.Numerics :=
  Mne.mkNumerics
    Mne.Pos3
    (fun _ _ => (1, 0, -2)%Q)
    shift
    (fun _ _ signal => signal)
    (fun envelope signal => if envelope then fmap Qabs signal else signal)
    (fun _ p => (p.1.1, p.1.2))
    (fun _ => mkImage [4; 6; 3]%nat []).

Definition recording : list Mne.Channel :=
  [ Mne.mkChannel "G1" (0, 0, 0)%Q [1; -3; 2]%Q;
    Mne.mkChannel "REF" (9, 9, 9)%Q [7; 7; 7]%Q;
    Mne.mkChannel "G2" (1, 2, 3)%Q [0; 1 # 2; -(1 # 4)]%Q ].

Definition layout : Layout :=
  mkLayout ["G1"; "G2"]
    [ mkBox 0 0 (1 # 10) (1 # 10); mkBox (1 # 2) (1 # 4) (1 # 10) (1 # 10) ]%Q.

Definition fif (p : Path) : option (list Mne.Channel) :=
  if decide (p = ["misc"; "ecog"; "sample_ecog_ieeg.fif"]) then Some recording else None.

Definition layouts (p : Path) : option Layout :=
  if decide (p = ["mne"; "data"; "image"; "custom_layout.lout"]) then Some layout else None.

Definition start : Mne.State numerics := Mne.boot numerics ["misc"] ["mne"] fif layouts.

(** The script run on this disk. *)
Definition trace : list Event := fmap fst (run (Mne.handler numerics) script start).1.2.

Definition outputs : Outputs :=
  mkOutputs [(1, 0); (2, 2)]%Q [3; 1 # 2]%Q [0; 6 # 2]%Q [4; 12 # 4]%Q.

(** The same interpreter over a disk without the recording. *)
Definition bare : Mne.State numerics :=
  Mne.boot numerics ["misc"] ["mne"] (fun _ => None) layouts.

Definition failed_trace : list Event :=
  [ Ev DataPath (inr ["misc"]);
    Ev MnePackageDir (inr ["mne"]);
    Ev (ReadRawFif ["misc"; "ecog"; "sample_ecog_ieeg.fif"])
       (inl (Mne.FileNotFoundError)) ].

End Demo.

(** ** What a trace shows *)

(** The exception a call answered with. *)
Definition event_exn (ev : Event) : option Exn :=
  match ev with
  | Ev _ (inl e) => Some e
  | Ev _ (inr _) => None
  end.

(** The channel selection handed to [pick_channels]. *)
Definition event_picks (ev : Event) : option (list string) :=
  match ev with
  | Ev (PickChannels _ names) _ => Some names
  | _ => None
  end.

(** What is drawn on an axes. *)
Inductive Drawing :=
| DrawImage (ax : Ref KAxes) (im : Image)
| DrawScatter (ax : Ref KAxes) (x y : list float) (opts : ScatterOpts).

Definition event_drawing (ev : Event) : option Drawing :=
  match ev with
  | Ev (Imshow ax im) _ => Some (DrawImage ax im)
  | Ev (Scatter ax x y opts) _ => Some (DrawScatter ax x y opts)
  | _ => None
  end.

Definition picks (tr : list Event) : list (list string) := omap event_picks tr.
Definition drawings (tr : list Event) : list Drawing := omap event_drawing tr.

(** The calls of lines 36-136 in the order the file makes them: the linear
    sequence of library invocations the specification describes. *)
Definition linear_sequence : list string :=
  [ "mne.datasets.misc.data_path"; "mne.__file__"; "read_raw_fif";
    "Raw.pick_channels"; "Raw.get_montage"; "mne.coreg.estimate_head_mri_t";
    "DigMontage.apply_trans"; "Raw.info"; "plot_alignment"; "set_3d_view";
    "snapshot_brain_montage"; "Raw.ch_names"; "Raw.load_data"; "Raw.filter";
    "Raw.apply_hilbert"; "Raw.get_data"; "plt.subplots"; "Axes.imshow";
    "Axes.scatter"; "Figure.colorbar"; "Colorbar.ax"; "Axes.set_ylabel";
    "Axes.set_axis_off"; "mne.channels.read_layout"; "plt.subplots";
    "Axes.imshow"; "Axes.scatter"; "Figure.tight_layout"; "Axes.set_axis_off" ].

(** The exception classes of Python and numpy that the expressions of the
    script can raise. *)
Definition builtin_classes : list string := ["KeyError"; "ValueError"; "IndexError"].

(** A program an [except] clause makes swallow what a call raises. *)
Definition guarded_read (fname : Path) : Prog (option (Ref KRaw)) :=
  Try (raw ← call (ReadRawFif fname); mret (Some raw)) (fun _ => mret None) Ret.

(** The figure, the montage and the answer of a [snapshot_brain_montage]
    call. *)
Definition event_snapshot (ev : Event)
  : option (Ref KFigure3D * Ref KMontage * Res (gmap string Pos2 * Image)) :=
  match ev with
  | @Ev X c r =>
      match c in LibCall X return Res X -> option _ with
      | SnapshotBrainMontage fig montage => fun r => Some (fig, montage, r)
      | _ => fun _ => None
      end r
  end.

(** ** Predicates on the arrays *)

(** [beta] has one entry per row of [data], and the entry is a sample of its
    row that no sample of the row exceeds. *)
Definition row_maxima (data : Array2) (beta : list float) : Prop :=
  length beta = length data /\
  forall i row, data !! i = Some row ->
    exists m, beta !! i = Some m /\ m ∈ row /\ forall v, v ∈ row -> (v <= m)%Q.

(** Row [i] of [xy_pts] is [xy[ch_names[i]]]. *)
Definition rows_follow (xy : gmap string Pos2) (ch_names : list string)
    (xy_pts : list Pos2) : Prop :=
  length xy_pts = length ch_names /\
  forall i ch, ch_names !! i = Some ch ->
    exists p, xy !! ch = Some p /\ xy_pts !! i = Some p.


(** The 256 distinct names G1 ... G256 in increasing numeric order, and
    nothing else. *)
Definition is_grid_selection (names : list string) : Prop :=
  (length names = 256)%nat /\
  NoDup names /\
  (forall k, (k < 256)%nat -> names !! k = Some ("G" +:+ str (Z.of_nat k + 1))) /\
  (forall s, s ∈ names <-> exists i, (1 <= i <= 256)%Z /\ s = "G" +:+ str i) /\
  ("G0" ∉ names) /\ ("G257" ∉ names).

(** ** Answers and edge cases *)

(** The answer of a [raw.ch_names] read. *)
Definition event_names (ev : Event) : option (Res (list string)) :=
  match ev with
  | @Ev X c r =>
      match c in LibCall X return Res X -> option _ with
      | RawChNames _ => fun r => Some r
      | _ => fun _ => None
      end r
  end.

(** The answer of a [get_data] call. *)
Definition event_data (ev : Event) : option (Res Array2) :=
  match ev with
  | @Ev X c r =>
      match c in LibCall X return Res X -> option _ with
      | GetData _ => fun r => Some r
      | _ => fun _ => None
      end r
  end.

(** The answer of a [read_layout] call. *)
Definition event_layout (ev : Event) : option (Res Layout) :=
  match ev with
  | @Ev X c r =>
      match c in LibCall X return Res X -> option _ with
      | ReadLayout _ _ => fun r => Some r
      | _ => fun _ => None
      end r
  end.

(** The image a [snapshot_brain_montage] call returned. *)
Definition event_image (ev : Event) : option Image :=
  match event_snapshot ev with
  | Some (_, _, inr (_, im)) => Some im
  | _ => None
  end.

(** The positions a [snapshot_brain_montage] call returned. *)
Definition event_xy (ev : Event) : option (gmap string Pos2) :=
  match event_snapshot ev with
  | Some (_, _, inr (xy, _)) => Some xy
  | _ => None
  end.

(** A call that did not raise. *)
Definition quiet (ev : Event) : bool :=
  match event_exn ev with
  | None => true
  | Some _ => false
  end.

(** The first key of [keys] that the dict does not hold. *)
Fixpoint first_missing {V} (d : gmap string V) (keys : list string) : option string :=
  match keys with
  | [] => None
  | key :: keys' =>
      match d !! key with
      | Some _ => first_missing d keys'
      | None => Some key
      end
  end.

(** The exceptions of [vstack], [row_max] and [tuple_getitem]. *)
Definition vstack_error : Exn := ValueError "need at least one array to concatenate".
Definition max_error : Exn :=
  ValueError "zero-size array to reduction operation maximum which has no identity".
Definition shape_error : Exn := IndexError "tuple index out of range".

Module Edge.

(** A recording without any channel of the grid. *)
Definition no_grid : list Mne.Channel :=
  [ Mne.mkChannel "REF" (9, 9, 9)%Q [7; 7; 7]%Q ].

(** A recording of the grid with no sample in time. *)
Definition no_samples : list Mne.Channel :=
  [ Mne.mkChannel "G1" (0, 0, 0)%Q []; Mne.mkChannel "G2" (1, 2, 3)%Q [] ].

(** Another recording of the grid. *)
Definition other : list Mne.Channel :=
  [ Mne.mkChannel "G5" (2, 2, 2)%Q [1; -5]%Q;
    Mne.mkChannel "G6" (0, 1, 0)%Q [2 # 3; 0]%Q;
    Mne.mkChannel "G200" (4, 4, 4)%Q [-1; -1]%Q ].

(** The numerics of [Demo], but a snapshot that is a one-dimensional array. *)
Definition numerics_1d : Mne.Numerics :=
  Mne.mkNumerics
    Mne.Pos3
    (fun _ _ => (1, 0, -2)%Q)
    Demo.shift
    (fun _ _ signal => signal)
    (fun envelope signal => if envelope then fmap Qabs signal else signal)
    (fun _ p => (p.1.1, p.1.2))
    (fun _ => mkImage [5]%nat []).

Definition disk (chs : list Mne.Channel) (p : Path) : option (list Mne.Channel) :=
  if decide (p = ["misc"; "ecog"; "sample_ecog_ieeg.fif"]) then Some chs else None.

Definition trace_no_grid : list Event :=
  fmap fst (run (Mne.handler Demo.numerics) script
              (Mne.boot Demo.numerics ["misc"] ["mne"] (disk no_grid) Demo.layouts)).1.2.

Definition trace_no_samples : list Event :=
  fmap fst (run (Mne.handler Demo.numerics) script
              (Mne.boot Demo.numerics ["misc"] ["mne"] (disk no_samples) Demo.layouts)).1.2.

Definition trace_other : list Event :=
  fmap fst (run (Mne.handler Demo.numerics) script
              (Mne.boot Demo.numerics ["misc"] ["mne"] (disk other) Demo.layouts)).1.2.

Definition outputs_other : Outputs :=
  mkOutputs [(3, 2); (1, 1); (5, 4)]%Q [5; 2 # 3; 1]%Q [0; 6 # 2]%Q [4; 12 # 4]%Q.

Definition trace_1d : list Event :=
  fmap fst (run (Mne.handler numerics_1d) script
              (Mne.boot numerics_1d ["misc"] ["mne"] Demo.fif Demo.layouts)).1.2.

(** Answers in which the snapshot lacks a position for a channel of the
    recording. *)
Definition image : Image := mkImage [4; 6; 3]%nat [].

Definition xy_partial : gmap string Pos2 := {[ "G1" := (3, 5)%Q ]}.

Definition trace_missing_key : list Event :=
  [ Ev DataPath (inr ["misc"]);
    Ev MnePackageDir (inr ["mne"]);
    Ev (ReadRawFif ["misc"; "ecog"; "sample_ecog_ieeg.fif"]) (inr (mkRef 0));
    Ev (PickChannels (mkRef 0) grid_names) (inr (mkRef 0));
    Ev (GetMontage (mkRef 0)) (inr (mkRef 0));
    Ev (EstimateHeadMriT "sample_ecog" ["misc"; "ecog"]) (inr (mkRef 0));
    Ev (ApplyTrans (mkRef 0) (mkRef 0)) (inr tt);
    Ev (RawInfo (mkRef 0)) (inr (mkRef 0));
    Ev (PlotAlignment (mkRef 0) (mkRef 0) "sample_ecog" ["misc"; "ecog"]
          [("pial", 9 # 10)]) (inr (mkRef 0));
    Ev (Set3dView (mkRef 0) 20 80) (inr tt);
    Ev (SnapshotBrainMontage (mkRef 0) (mkRef 0)) (inr (xy_partial, image));
    Ev (RawChNames (mkRef 0)) (inr ["G1"; "G7"; "G9"]) ].

End Edge.


(** ** Proof tools *)

Ltac exec_simpl H := cbn [exec bind mbind prog_bind call mret prog_ret] in H.

(** Every way [H : exec script tr o] can hold: one goal per place the script
    can stop, the trace written out. *)
Ltac exec_inv H :=
  unfold script in H; exec_simpl H;
  repeat lazymatch type of H with
  | _ \/ _ => destruct H as [H | H]
  | ex _ => let x := fresh "x" in destruct H as [x H]
  | ?a = _ /\ _ =>
      let E := fresh "E" in destruct H as [E H]; first [subst a | discriminate E]
  | exec (mbind _ (lift ?r)) _ _ =>
      let E := fresh "E" in destruct r eqn:E; cbn [lift] in H; exec_simpl H
  | exec (let '(_, _) := ?p in _) _ _ => destruct p; exec_simpl H
  | Done _ = Raised _ => discriminate H
  | Raised _ = Done _ => discriminate H
  end.

Ltac solve_In := solve [cbn [In]; repeat first [left; reflexivity | right]].

Ltac prog_simpl := cbn [handler_free lift bind mbind prog_bind call mret prog_ret].


(** ** The semantics agree *)

Lemma run_exec {S A} (h : Handler S) (p : Prog A) :
  forall s o log s', run h p s = (o, log, s') -> exec p (fmap fst log) o.
Proof.
  induction p as [A a | A e | A X c k IH | A B body IHb handler IHh k IHk];
    intros s o log s' Hrun; cbn [run] in Hrun; cbn [exec].
  - injection Hrun as <- <- <-. split; reflexivity.
  - injection Hrun as <- <- <-. split; reflexivity.
  - destruct (h X c s) as [[e | x] s1].
    + injection Hrun as <- <- <-. left. exists e. split; reflexivity.
    + destruct (run h (k x) s1) as [[o1 log1] s2] eqn:Hk.
      injection Hrun as <- <- <-. right. exists x, (fmap fst log1).
      split; [reflexivity | eapply IH, Hk].
  - destruct (run h body s) as [[ob log1] s1] eqn:Hb.
    exists (fmap fst log1), ob. split; [eapply IHb, Hb |].
    destruct ob as [b | e].
    + destruct (run h (k b) s1) as [[o2 log2] s2] eqn:Hk.
      injection Hrun as <- <- <-. exists (fmap fst log2).
      split; [apply fmap_app | eapply IHk, Hk].
    + destruct (run h (handler e) s1) as [[oh log2] s2] eqn:Hh.
      exists (fmap fst log2), oh. split; [eapply IHh, Hh |].
      destruct oh as [b | e'].
      * destruct (run h (k b) s2) as [[o3 log3] s3] eqn:Hk.
        injection Hrun as <- <- <-. exists (fmap fst log3).
        split; [rewrite !fmap_app; reflexivity | eapply IHk, Hk].
      * injection Hrun as <- <- <-. split; [apply fmap_app | reflexivity].
Qed.

(** The script completes on the demo disk. *)
Lemma demo_exec : exec script Demo.trace (Done Demo.outputs).
Proof.
  unfold Demo.trace.
  destruct (run (Mne.handler Demo.numerics) script Demo.start) as [[o log] s'] eqn:Hrun.
  assert (Ho : o = Done Demo.outputs).
  { apply (f_equal (fun r => r.1.1)) in Hrun. cbn [fst] in Hrun. rewrite <- Hrun.
    vm_compute. reflexivity. }
  rewrite <- Ho. cbn [fst snd]. eapply run_exec, Hrun.
Qed.

Lemma triple_eta {A B C} (r : A * B * C) : r = (r.1.1, r.1.2, r.2).
Proof. destruct r as [[a b] c]. reflexivity. Qed.



(** The script stops at [read_raw_fif] when the recording is missing. *)
Lemma demo_failed_exec :
  exec script Demo.failed_trace (Raised Mne.FileNotFoundError).
Proof.
  assert (Hrun : exists log s',
    run (Mne.handler Demo.numerics) script Demo.bare
      = (Raised Mne.FileNotFoundError, log, s') /\ fmap fst log = Demo.failed_trace).
  { do 2 eexists. split; [vm_compute; reflexivity | reflexivity]. }
  destruct Hrun as (log & s' & Hrun & <-). eapply run_exec, Hrun.
Qed.

(** An [except] clause does swallow what a call raises: [guarded_read]
    completes on the trace on which the script ends with the exception. *)
Example guarded_read_swallows (fname : Path) (e : Exn) :
  exec (guarded_read fname) [Ev (ReadRawFif fname) (inl e)] (Done None).
Proof.
  cbn. exists [Ev (ReadRawFif fname) (inl e)], (Raised e).
  split; [left; exists e; split; reflexivity |].
  exists [], (Done None). split; [split; reflexivity |].
  exists []. repeat split.
Qed.

(** ** The glue *)

Lemma list_comp_inr {A B} (f : A -> Res B) (l : list A) (bs : list B) :
  list_comp f l = inr bs ->
  length bs = length l /\
  forall i a, l !! i = Some a -> exists b, f a = inr b /\ bs !! i = Some b.
Proof.
  revert bs. induction l as [| a l IH]; intros bs H; cbn [list_comp] in H.
  - injection H as <-. split; [reflexivity | intros i a Hi; destruct i; discriminate Hi].
  - destruct (f a) as [e | b] eqn:Hfa; [discriminate H |].
    destruct (list_comp f l) as [e | bs'] eqn:Hl; [discriminate H |].
    injection H as <-. destruct (IH bs' eq_refl) as [Hlen Hnth].
    split; [cbn; f_equal; exact Hlen |].
    intros [| i] a' Hi; cbn in Hi.
    + injection Hi as <-. exists b. split; [exact Hfa | reflexivity].
    + apply Hnth, Hi.
Qed.

Lemma fmax_le_l (a b : float) : (a <= fmax a b)%Q.
Proof.
  unfold fmax. destruct (Qle_bool a b) eqn:H.
  - apply Qle_bool_iff, H.
  - apply Qle_refl.
Qed.

Lemma fmax_le_r (a b : float) : (b <= fmax a b)%Q.
Proof.
  unfold fmax. destruct (Qle_bool a b) eqn:H.
  - apply Qle_refl.
  - apply Qlt_le_weak, Qnot_le_lt. intros Hle. apply Qle_bool_iff in Hle. congruence.
Qed.

Lemma fmax_cases (a b : float) : fmax a b = a \/ fmax a b = b.
Proof. unfold fmax. destruct (Qle_bool a b); [right | left]; reflexivity. Qed.

Lemma fold_fmax (row : list float) (v : float) :
  fold_left fmax row v ∈ v :: row /\
  forall w, w ∈ v :: row -> (w <= fold_left fmax row v)%Q.
Proof.
  revert v. induction row as [| u row IH]; intros v; cbn [fold_left].
  - split; [apply list_elem_of_here |].
    intros w Hw. apply list_elem_of_singleton in Hw as ->. apply Qle_refl.
  - destruct (IH (fmax v u)) as [Hin Hmax]. split.
    + apply elem_of_cons in Hin as [Heq | Hin].
      * rewrite Heq. destruct (fmax_cases v u) as [-> | ->].
        -- apply list_elem_of_here.
        -- apply list_elem_of_further, list_elem_of_here.
      * do 2 apply list_elem_of_further. exact Hin.
    + intros w Hw. apply elem_of_cons in Hw as [-> | Hw].
      * eapply Qle_trans; [apply fmax_le_l | apply Hmax, list_elem_of_here].
      * apply elem_of_cons in Hw as [-> | Hw].
        -- eapply Qle_trans; [apply fmax_le_r | apply Hmax, list_elem_of_here].
        -- apply Hmax, list_elem_of_further, Hw.
Qed.

Lemma row_max_inr (row : list float) (m : float) :
  row_max row = inr m -> m ∈ row /\ forall w, w ∈ row -> (w <= m)%Q.
Proof.
  destruct row as [| v row]; cbn [row_max]; intros H; [discriminate H |].
  injection H as <-. apply fold_fmax.
Qed.

Lemma max_axis1_inr (data : Array2) (beta : list float) :
  max_axis1 data = inr beta -> row_maxima data beta.
Proof.
  intros H. apply list_comp_inr in H as [Hlen Hnth]. split; [exact Hlen |].
  intros i row Hi. destruct (Hnth i row Hi) as (m & Hm & Hb).
  exists m. split; [exact Hb | apply row_max_inr, Hm].
Qed.

Lemma vstack_inr (rows pts : list Pos2) :
  vstack rows = inr pts -> pts = rows /\ rows <> [].
Proof.
  destruct rows; cbn; intros H; [discriminate H |].
  injection H as <-. split; [reflexivity | discriminate].
Qed.

Lemma getitem_inr {V} (d : gmap string V) (key : string) (v : V) :
  getitem d key = inr v -> d !! key = Some v.
Proof.
  unfold getitem. destruct (d !! key); intros H;
    [injection H as <-; reflexivity | discriminate H].
Qed.

Lemma xy_pts_inr (xy : gmap string Pos2) (ch_names : list string) (xy_pts : list Pos2) :
  res_bind (list_comp (getitem xy) ch_names) vstack = inr xy_pts ->
  rows_follow xy ch_names xy_pts.
Proof.
  unfold res_bind.
  destruct (list_comp (getitem xy) ch_names) as [e | rows] eqn:Hc; [discriminate |].
  intros Hv. apply vstack_inr in Hv as [-> _].
  apply list_comp_inr in Hc as [Hlen Hnth]. split; [exact Hlen |].
  intros i ch Hi. destruct (Hnth i ch Hi) as (p & Hp & Hrow).
  exists p. split; [apply getitem_inr, Hp | exact Hrow].
Qed.



Lemma list_comp_inl {A B} (f : A -> Res B) (l : list A) (e : Exn) :
  list_comp f l = inl e -> exists a, a ∈ l /\ f a = inl e.
Proof.
  induction l as [| a l IH]; cbn [list_comp]; intros H; [discriminate H |].
  destruct (f a) as [e' | b] eqn:Hfa.
  - injection H as ->. exists a. split; [apply list_elem_of_here | exact Hfa].
  - destruct (list_comp f l) as [e' | bs]; [| discriminate H].
    injection H as ->. destruct (IH eq_refl) as (a' & Hin & Ha').
    exists a'. split; [apply list_elem_of_further, Hin | exact Ha'].
Qed.

Lemma xy_pts_inl (xy : gmap string Pos2) (ch_names : list string) (e : Exn) :
  res_bind (list_comp (getitem xy) ch_names) vstack = inl e ->
  exc_class e ∈ builtin_classes.
Proof.
  unfold res_bind. destruct (list_comp (getitem xy) ch_names) as [e' | rows] eqn:Hc.
  - intros H. injection H as ->. apply list_comp_inl in Hc as (ch & _ & Hch).
    unfold getitem in Hch. destruct (xy !! ch); [discriminate Hch |].
    injection Hch as <-. apply list_elem_of_here.
  - destruct rows; cbn [vstack]; intros H; [| discriminate H].
    injection H as <-. apply list_elem_of_further, list_elem_of_here.
Qed.

Lemma max_axis1_inl (data : Array2) (e : Exn) :
  max_axis1 data = inl e -> exc_class e ∈ builtin_classes.
Proof.
  intros H. apply list_comp_inl in H as (row & _ & Hrow).
  destruct row; cbn [row_max] in Hrow; [| discriminate Hrow].
  injection Hrow as <-. apply list_elem_of_further, list_elem_of_here.
Qed.

Lemma layout_to_pixels_inl (lt : Layout) (im : Image) (e : Exn) :
  layout_to_pixels lt im = inl e -> exc_class e ∈ builtin_classes.
Proof.
  unfold layout_to_pixels, res_bind, tuple_getitem.
  destruct (shape im !! 1%nat); [destruct (shape im !! 0%nat) |]; intros H;
    try discriminate H; injection H as <-;
    do 2 apply list_elem_of_further; apply list_elem_of_here.
Qed.

(** ** The pixel arithmetic *)









(** ** The channel selection *)

Lemma grid_names_seqZ : grid_names = (fun i => "G" +:+ str i) <$> seqZ 1 256.
Proof. reflexivity. Qed.

Lemma grid_names_selection : is_grid_selection grid_names.
Proof.
  split; [vm_compute; reflexivity |].
  split; [apply (bool_decide_unpack _); vm_compute; exact I |].
  split.
  { intros k Hk. rewrite grid_names_seqZ, list_lookup_fmap, lookup_seqZ_lt by lia.
    cbn [fmap option_fmap option_map]. do 3 f_equal. lia. }
  split.
  { intros s. rewrite grid_names_seqZ, list_elem_of_fmap. split.
    - intros (i & -> & Hi). apply elem_of_seqZ in Hi. exists i. split; [lia | reflexivity].
    - intros (i & Hi & ->). exists i. split; [reflexivity | apply elem_of_seqZ; lia]. }
  split; apply (bool_decide_unpack _); vm_compute; exact I.
Qed.

(** ** The script as a program *)

Lemma script_handler_free : handler_free script.
Proof.
  unfold script. prog_simpl.
  repeat lazymatch goal with
  | |- forall _, _ => intro
  | |- handler_free (mbind _ (lift ?r)) => destruct r; prog_simpl
  | |- handler_free (let '(_, _) := ?p in _) => destruct p; prog_simpl
  | |- True => exact I
  end.
Qed.

(** In a program without handlers the call that raises is the last one, and
    the program ends with what it raised. *)
Lemma raise_ends_the_program {A} (p : Prog A) :
  handler_free p ->
  forall tr o ev e, exec p tr o -> In ev tr -> event_exn ev = Some e ->
    o = Raised e /\ last tr = Some ev.
Proof.
  induction p as [A a | A e0 | A X c k IH | A B body _ handler _ k _];
    cbn [handler_free exec]; intros Hfree tr o ev e Hexec Hin Hexn.
  - destruct Hexec as [-> _]. destruct Hin.
  - destruct Hexec as [-> _]. destruct Hin.
  - destruct Hexec as [(e1 & -> & ->) | (x & tr' & -> & Hexec)].
    + destruct Hin as [<- | []]. cbn in Hexn. injection Hexn as ->.
      split; reflexivity.
    + destruct Hin as [<- | Hin]; [discriminate Hexn |].
      destruct (IH x (Hfree x) tr' o ev e Hexec Hin Hexn) as [-> Hlast].
      split; [reflexivity |]. destruct tr' as [| ev' tr']; [destruct Hin | exact Hlast].
  - destruct Hfree.
Qed.



Lemma script_calls_in_sequence (tr : list Event) (o : Outcome Outputs) :
  exec script tr o ->
  call_names tr `prefix_of` linear_sequence /\
  (forall out, o = Done out -> call_names tr = linear_sequence).
Proof.
  intros H. split.
  - exec_inv H; eexists; reflexivity.
  - intros out ->. exec_inv H. reflexivity.
Qed.

Lemma event_snapshot_name (ev : Event) v :
  event_snapshot ev = Some v -> event_name ev = "snapshot_brain_montage".
Proof.
  destruct ev as [X c r]. destruct c; cbn; intros H;
    solve [discriminate H | reflexivity].
Qed.

Lemma snapshot_position (i : nat) :
  linear_sequence !! i = Some "snapshot_brain_montage" -> i = 10%nat.
Proof.
  unfold linear_sequence.
  do 29 (destruct i as [| i]; [intros H; solve [discriminate H | reflexivity] |]).
  intros H. discriminate H.
Qed.

Lemma snapshot_is_eleventh_call {S} (h : Handler S) s o log s' :
  run h script s = (o, log, s') ->
  forall i ev pre v, log !! i = Some (ev, pre) -> event_snapshot ev = Some v -> i = 10%nat.
Proof.
  intros Hrun i ev pre v Hi Hev. apply run_exec in Hrun.
  apply script_calls_in_sequence in Hrun as [Hpre _].
  apply snapshot_position. eapply prefix_lookup_Some; [| exact Hpre].
  unfold call_names. rewrite !list_lookup_fmap, Hi. cbn.
  f_equal. eapply event_snapshot_name, Hev.
Qed.


(** ** Properties of the script *)

(** C1.  On the reference model of the library, started from a fresh
    interpreter over a disk that holds the recording: [snapshot_brain_montage]
    is called, and at every such call the montage passed holds, for every
    picked channel of the file, its head-space position with the estimated
    head-to-MRI transform applied; the 2D positions returned are the
    projections of these MRI-space positions. *)
Theorem snapshot_montage_is_in_mri_space
    (N : Mne.Numerics) (misc package : Path)
    (fif : Path -> option (list Mne.Channel)) (layouts : Path -> option Layout)
    (chs : list Mne.Channel)
    (o : Outcome Outputs) (log : list (Event * Mne.State N)) (s' : Mne.State N) :
  fif (misc ++ ["ecog"; "sample_ecog_ieeg.fif"]) = Some chs ->
  run (Mne.handler N) script (Mne.boot N misc package fif layouts) = (o, log, s') ->
  let trans := Mne.estimate N "sample_ecog" (misc ++ ["ecog"]) in
  let picked := Mne.pick grid_names chs in
  (exists ev pre v, In (ev, pre) log /\ event_snapshot ev = Some v) /\
  forall ev pre fig montage answer,
    In (ev, pre) log -> event_snapshot ev = Some (fig, montage, answer) ->
    Mne.montages pre !! addr montage =
      Some ((fun c => (Mne.ch_name c, Mne.apply_pt N trans (Mne.ch_loc c))) <$> picked) /\
    answer =
      inr (list_to_map
             ((fun c => (Mne.ch_name c,
                         Mne.project N (Some (20, 80)%Z)
                           (Mne.apply_pt N trans (Mne.ch_loc c)))) <$> picked),
           Mne.render N (Some (20, 80)%Z)).
Proof.
  intros Hfile Hrun trans picked. pose proof Hrun as Hwhole.
  unfold script in Hrun.
  cbn [run bind mbind prog_bind call mret prog_ret Mne.handler Mne.boot
       Mne.misc_dir Mne.package_dir Mne.fif_files] in Hrun.
  unfold path_div in Hrun. rewrite <- !app_assoc in Hrun. cbn [app] in Hrun.
  rewrite Hfile in Hrun.
  cbn -[grid_names Mne.pick Mne.montage_of Mne.transformed Mne.snapshot] in Hrun.
  match type of Hrun with context [run ?h ?p ?s] =>
    destruct (run h p s) as [[o1 log1] s1] end.
  injection Hrun as _ Hlog _. subst log. fold trans picked in Hwhole |- *.
  assert (Hmri : Mne.transformed N trans (Mne.montage_of picked) =
                 (fun c => (Mne.ch_name c, Mne.apply_pt N trans (Mne.ch_loc c))) <$> picked).
  { unfold Mne.transformed, Mne.montage_of. rewrite <- list_fmap_compose. reflexivity. }
  assert (Hxy : Mne.snapshot N (Some (20, 80)%Z)
                  (Mne.transformed N trans (Mne.montage_of picked)) =
                list_to_map ((fun c => (Mne.ch_name c,
                   Mne.project N (Some (20, 80)%Z)
                     (Mne.apply_pt N trans (Mne.ch_loc c)))) <$> picked)).
  { unfold Mne.snapshot. rewrite Hmri, <- list_fmap_compose. reflexivity. }
  split.
  - do 3 eexists. split; [do 10 right; left; reflexivity | reflexivity].
  - intros ev pre fig montage answer Hin Hev.
    apply list_elem_of_In, list_elem_of_lookup_1 in Hin as [i Hi].
    pose proof (snapshot_is_eleventh_call _ _ _ _ _ Hwhole i ev pre _ Hi Hev) as ->.
    cbn [lookup list_lookup] in Hi. injection Hi as <- <-.
    cbn in Hev. injection Hev as <- <- <-.
    split; [cbn; rewrite Hmri; reflexivity | rewrite Hxy; reflexivity].
Qed.

Lemma snapshot_montage_is_in_mri_space_demo :
  let result := run (Mne.handler Demo.numerics) script Demo.start in
  let picked := Mne.pick grid_names Demo.recording in
  (exists ev pre v, In (ev, pre) result.1.2 /\ event_snapshot ev = Some v) /\
  forall ev pre fig montage answer,
    In (ev, pre) result.1.2 -> event_snapshot ev = Some (fig, montage, answer) ->
    Mne.montages pre !! addr montage =
      Some ((fun c => (Mne.ch_name c, Demo.shift (1, 0, -2)%Q (Mne.ch_loc c))) <$> picked) /\
    answer =
      inr (list_to_map
             ((fun c => (Mne.ch_name c,
                         ((Demo.shift (1, 0, -2)%Q (Mne.ch_loc c)).1.1,
                          (Demo.shift (1, 0, -2)%Q (Mne.ch_loc c)).1.2))) <$> picked),
           mkImage [4; 6; 3]%nat []).
Proof.
  intros result picked.
  apply (snapshot_montage_is_in_mri_space Demo.numerics ["misc"] ["mne"]
           Demo.fif Demo.layouts Demo.recording result.1.1 result.1.2 result.2).
  - vm_compute. reflexivity.
  - apply triple_eta.
Defined.





(** C4, as the code has it.  The script as written asks for no file to be
    written, in any execution: [fig2.savefig] and [lt.save] stand in
    commented-out lines only. *)
Theorem script_writes_no_file (tr : list Event) (o : Outcome Outputs) :
  exec script tr o -> files_written tr = [].
Proof. intros H. exec_inv H; reflexivity. Qed.

Lemma script_writes_no_file_demo : files_written Demo.trace = [].
Proof. exact (script_writes_no_file Demo.trace (Done Demo.outputs) demo_exec). Defined.

(** C4 as the specification states it does not hold: no execution of the
    script as written writes an image file and a layout file. *)
Lemma no_execution_writes_the_two_files :
  ~ exists tr o image_file layout_file,
      exec script tr o /\
      image_file ∈ files_written tr /\ layout_file ∈ files_written tr.
Proof.
  intros (tr & o & f & g & H & Hf & _).
  exec_inv H; cbn in Hf; apply elem_of_nil in Hf; exact Hf.
Qed.

(** C5.  The script has no [except] clause; in every execution a call that
    raises is the last call made and the script ends with exactly the
    exception that call raised; and an exception the script ends with is
    either the one its last call raised or a built-in exception of Python or
    numpy raised by one of its own expressions: the script has no exception
    class of its own. *)
Theorem library_exceptions_propagate (tr : list Event) (o : Outcome Outputs) :
  exec script tr o ->
  handler_free script /\
  (forall ev e, In ev tr -> event_exn ev = Some e -> o = Raised e /\ last tr = Some ev) /\
  (forall e, o = Raised e ->
     (exists ev, last tr = Some ev /\ event_exn ev = Some e) \/
     exc_class e ∈ builtin_classes).
Proof.
  intros H. split; [apply script_handler_free |]. split.
  - intros ev e. apply (raise_ends_the_program script script_handler_free tr o ev e H).
  - intros e ->. exec_inv H; injection H as ->.
    all: first
      [ left; eexists; split; reflexivity
      | right; eauto using xy_pts_inl, max_axis1_inl, layout_to_pixels_inl ].
Qed.

Lemma library_exceptions_propagate_demo :
  handler_free script /\
  (forall ev e, In ev Demo.failed_trace -> event_exn ev = Some e ->
     @Raised Outputs Mne.FileNotFoundError = Raised e /\
     last Demo.failed_trace = Some ev) /\
  (forall e, @Raised Outputs Mne.FileNotFoundError = Raised e ->
     (exists ev, last Demo.failed_trace = Some ev /\ event_exn ev = Some e) \/
     exc_class e ∈ builtin_classes).
Proof.
  exact (library_exceptions_propagate Demo.failed_trace
           (Raised Mne.FileNotFoundError) demo_failed_exec).
Defined.





(** C8.  In every complete execution row [i] of [xy_pts] is
    [xy[raw.ch_names[i]]], for the [xy] the snapshot returned and the names
    read from the recording; the first scatter call receives the columns of
    [xy_pts] as positions and [beta_power] as colours, and [beta_power] is
    the row-wise maximum of what [get_data] returned for that recording after
    [filter] and [apply_hilbert]. *)
Theorem xy_pts_rows_follow_ch_names (tr : list Event) (out : Outputs) :
  exec script tr (Done out) ->
  exists fig montage xy im raw ch_names ax points filtered envelope data,
    In (Ev (SnapshotBrainMontage fig montage) (inr (xy, im))) tr /\
    In (Ev (RawChNames raw) (inr ch_names)) tr /\
    rows_follow xy ch_names (out_xy_pts out) /\
    In (Ev (Scatter ax (out_xy_pts out).*1 (out_xy_pts out).*2
              (mkScatterOpts (Some (out_beta_power out)) 100 (Some "coolwarm") None))
           (inr points)) tr /\
    In (Ev (Filter raw 20 30) (inr filtered)) tr /\
    In (Ev (ApplyHilbert filtered true) (inr envelope)) tr /\
    In (Ev (GetData envelope) (inr data)) tr /\
    row_maxima data (out_beta_power out).
Proof.
  intros H. exec_inv H. injection H as ->. cbn [out_xy_pts out_beta_power].
  do 11 eexists.
  split; [solve_In |]. split; [solve_In |].
  split; [apply xy_pts_inr; eassumption |].
  repeat (split; [solve_In |]).
  apply max_axis1_inr. eassumption.
Qed.

Lemma xy_pts_rows_follow_ch_names_demo :
  exists fig montage xy im raw ch_names ax points filtered envelope data,
    In (Ev (SnapshotBrainMontage fig montage) (inr (xy, im))) Demo.trace /\
    In (Ev (RawChNames raw) (inr ch_names)) Demo.trace /\
    rows_follow xy ch_names (out_xy_pts Demo.outputs) /\
    In (Ev (Scatter ax (out_xy_pts Demo.outputs).*1 (out_xy_pts Demo.outputs).*2
              (mkScatterOpts (Some (out_beta_power Demo.outputs)) 100
                 (Some "coolwarm") None))
           (inr points)) Demo.trace /\
    In (Ev (Filter raw 20 30) (inr filtered)) Demo.trace /\
    In (Ev (ApplyHilbert filtered true) (inr envelope)) Demo.trace /\
    In (Ev (GetData envelope) (inr data)) Demo.trace /\
    row_maxima data (out_beta_power Demo.outputs).
Proof. exact (xy_pts_rows_follow_ch_names Demo.trace Demo.outputs demo_exec). Defined.



(** C10.  Every selection the script hands to [pick_channels] is
    [grid_names], a complete execution hands it over exactly once, and
    [grid_names] is the 256 distinct names G1, ..., G256 in increasing
    numeric order: it holds "G{i}" for every [1 <= i <= 256] and nothing
    else, neither "G0" nor "G257". *)
Theorem pick_channels_selection (tr : list Event) (o : Outcome Outputs) :
  exec script tr o ->
  (forall names, names ∈ picks tr -> names = grid_names) /\
  (forall out, o = Done out -> picks tr = [grid_names]) /\
  is_grid_selection grid_names.
Proof.
  intros H. split; [| split; [| apply grid_names_selection]].
  - intros names Hn. exec_inv H; cbn in Hn.
    all: repeat (apply elem_of_cons in Hn as [-> | Hn]; [reflexivity |]).
    all: apply elem_of_nil in Hn; contradiction.
  - intros out ->. exec_inv H. reflexivity.
Qed.

Lemma pick_channels_selection_demo :
  (forall names, names ∈ picks Demo.trace -> names = grid_names) /\
  (forall out, Done Demo.outputs = Done out -> picks Demo.trace = [grid_names]) /\
  is_grid_selection grid_names.
Proof. exact (pick_channels_selection Demo.trace (Done Demo.outputs) demo_exec). Defined.



(** ** Edge behaviour and data flow *)

Lemma run_exec_outcome {S A} (h : Handler S) (p : Prog A) (s : S) (o : Outcome A) :
  (run h p s).1.1 = o -> exec p (fmap fst (run h p s).1.2) o.
Proof.
  destruct (run h p s) as [[o' log] s'] eqn:Hrun. cbn [fst snd]. intros <-.
  eapply run_exec, Hrun.
Qed.

Lemma first_missing_Some {V} (d : gmap string V) (keys : list string) (key : string) :
  first_missing d keys = Some key -> list_comp (getitem d) keys = inl (KeyError key).
Proof.
  induction keys as [| k keys IH]; cbn [first_missing list_comp]; [discriminate |].
  unfold getitem at 1. destruct (d !! k) as [v |].
  - intros H. rewrite (IH H). reflexivity.
  - intros H. injection H as <-. reflexivity.
Qed.


Lemma exec_missing_key :
  exec script Edge.trace_missing_key (Raised (KeyError "G7")).
Proof.
  unfold script, Edge.trace_missing_key.
  cbn [exec bind mbind prog_bind call mret prog_ret].
  repeat (right; do 2 eexists; split; [reflexivity |]).
  vm_compute. split; reflexivity.
Qed.

Lemma max_axis1_empty_row (data : Array2) :
  [] ∈ data -> max_axis1 data = inl max_error.
Proof.
  unfold max_axis1. induction data as [| row data IH]; intros Hin.
  - apply elem_of_nil in Hin. contradiction.
  - cbn [list_comp]. destruct row as [| v row]; [reflexivity |].
    cbn [row_max]. apply elem_of_cons in Hin as [Heq | Hin]; [discriminate Heq |].
    rewrite (IH Hin). reflexivity.
Qed.

Lemma layout_to_pixels_short (lt : Layout) (im : Image) :
  (length (shape im) < 2)%nat -> layout_to_pixels lt im = inl shape_error.
Proof.
  intros Hlen. unfold layout_to_pixels, res_bind, tuple_getitem.
  destruct (shape im) as [| h [| w rest]]; cbn in Hlen |- *; [reflexivity .. | lia].
Qed.

Lemma layout_to_pixels_total (lt : Layout) (im : Image) :
  (2 <= length (shape im))%nat ->
  exists x y, layout_to_pixels lt im = inr (x, y) /\
    length x = length (pos lt) /\ length y = length (pos lt).
Proof.
  intros Hlen. unfold layout_to_pixels, res_bind, tuple_getitem.
  destruct (shape im) as [| h [| w rest]]; cbn in Hlen |- *; [lia .. |].
  do 2 eexists. split; [reflexivity |]. rewrite !length_fmap. split; reflexivity.
Qed.

Lemma xy_pts_inl_exact (xy : gmap string Pos2) (ch_names : list string) (e : Exn) :
  res_bind (list_comp (getitem xy) ch_names) vstack = inl e ->
  (exists ch, ch ∈ ch_names /\ xy !! ch = None /\ e = KeyError ch) \/
  (ch_names = [] /\ e = vstack_error).
Proof.
  unfold res_bind. destruct (list_comp (getitem xy) ch_names) as [e' | rows] eqn:Hc.
  - intros H. injection H as ->. apply list_comp_inl in Hc as (ch & Hin & Hch).
    unfold getitem in Hch. destruct (xy !! ch) eqn:Hlook; [discriminate Hch |].
    injection Hch as <-. left. exists ch. repeat split; assumption.
  - destruct rows; cbn [vstack]; intros H; [| discriminate H].
    injection H as <-. right. split; [| reflexivity].
    apply list_comp_inr in Hc as [Hlen _]. destruct ch_names; [reflexivity | discriminate Hlen].
Qed.

Lemma max_axis1_inl_exact (data : Array2) (e : Exn) :
  max_axis1 data = inl e -> [] ∈ data /\ e = max_error.
Proof.
  intros H. apply list_comp_inl in H as (row & Hin & Hrow).
  destruct row; cbn [row_max] in Hrow; [| discriminate Hrow].
  injection Hrow as <-. split; [exact Hin | reflexivity].
Qed.

Lemma layout_to_pixels_inl_exact (lt : Layout) (im : Image) (e : Exn) :
  layout_to_pixels lt im = inl e -> (length (shape im) < 2)%nat /\ e = shape_error.
Proof.
  intros H. destruct (le_lt_dec 2 (length (shape im))) as [Hge | Hlt].
  - destruct (layout_to_pixels_total lt im Hge) as (x & y & Hok & _).
    rewrite Hok in H. discriminate H.
  - rewrite (layout_to_pixels_short lt im Hlt) in H. injection H as <-.
    split; [exact Hlt | reflexivity].
Qed.

Lemma quiet_trace (tr : list Event) :
  forallb quiet tr = true -> forall ev, In ev tr -> event_exn ev = None.
Proof.
  intros Hall ev Hin. apply (proj1 (forallb_forall quiet tr) Hall) in Hin.
  unfold quiet in Hin. destruct (event_exn ev); [discriminate Hin | reflexivity].
Qed.

Lemma trace_no_grid_quiet : forall ev, In ev Edge.trace_no_grid -> event_exn ev = None.
Proof. apply quiet_trace. vm_compute. reflexivity. Qed.

(** X2.  Line 82: when the recording has a channel name for which the
    snapshot returned no position, the script ends with [KeyError] of the
    first such name in [raw.ch_names], after exactly the first twelve calls:
    [load_data] and everything after it are never reached. *)
Theorem missing_channel_raises_key_error
    (tr : list Event) (o : Outcome Outputs)
    (fig : Ref KFigure3D) (montage : Ref KMontage)
    (xy : gmap string Pos2) (im : Image) (ch_names : list string) (ch : string) :
  exec script tr o ->
  tr !! 10%nat ≫= event_snapshot = Some (fig, montage, inr (xy, im)) ->
  tr !! 11%nat ≫= event_names = Some (inr ch_names) ->
  first_missing xy ch_names = Some ch ->
  o = Raised (KeyError ch) /\ call_names tr = take 12 linear_sequence.
Proof.
  intros H Hxy Hnames Hmiss.
  exec_inv H; cbn in Hxy, Hnames; try discriminate Hxy; try discriminate Hnames.
  all: injection Hxy as _ _ -> _; injection Hnames as ->.
  all: match goal with E : res_bind _ _ = _ |- _ =>
         rewrite (first_missing_Some _ _ _ Hmiss) in E; cbn [res_bind] in E;
         try discriminate E; injection E as <- end.
  split; [exact H | reflexivity].
Qed.

Lemma missing_channel_raises_key_error_witness :
  @Raised Outputs (KeyError "G7") = Raised (KeyError "G7") /\
  call_names Edge.trace_missing_key = take 12 linear_sequence.
Proof.
  apply (missing_channel_raises_key_error Edge.trace_missing_key _
           (mkRef 0) (mkRef 0) Edge.xy_partial Edge.image ["G1"; "G7"; "G9"] "G7").
  - exact exec_missing_key.
  - reflexivity.
  - reflexivity.
  - vm_compute. reflexivity.
Defined.

Lemma exec_no_grid : exec script Edge.trace_no_grid (Raised vstack_error).
Proof. apply run_exec_outcome. vm_compute. reflexivity. Qed.

(** X3.  Line 82: when [raw.ch_names] is empty the script ends with numpy's
    [ValueError] for an empty [np.vstack], after exactly the first twelve
    calls. *)
Theorem no_channel_raises_value_error (tr : list Event) (o : Outcome Outputs) :
  exec script tr o ->
  tr !! 11%nat ≫= event_names = Some (inr []) ->
  o = Raised vstack_error /\ call_names tr = take 12 linear_sequence.
Proof.
  intros H Hnames.
  exec_inv H; cbn in Hnames; try discriminate Hnames.
  all: injection Hnames as ->.
  all: match goal with E : res_bind _ _ = _ |- _ =>
         cbn in E; try discriminate E; injection E as <- end.
  split; [exact H | reflexivity].
Qed.

Lemma no_channel_raises_value_error_witness :
  @Raised Outputs vstack_error = Raised vstack_error /\
  call_names Edge.trace_no_grid = take 12 linear_sequence.
Proof.
  apply (no_channel_raises_value_error Edge.trace_no_grid _ exec_no_grid).
  vm_compute. reflexivity.
Defined.

Lemma exec_no_samples : exec script Edge.trace_no_samples (Raised max_error).
Proof. apply run_exec_outcome. vm_compute. reflexivity. Qed.

(** X4.  Line 87: when a row of the array [get_data] returned has no sample,
    the script ends with numpy's zero-size [ValueError] right after
    [get_data]: sixteen calls are made and nothing is drawn. *)
Theorem empty_row_raises_before_any_figure
    (tr : list Event) (o : Outcome Outputs) (data : Array2) :
  exec script tr o ->
  tr !! 15%nat ≫= event_data = Some (inr data) ->
  [] ∈ data ->
  o = Raised max_error /\ call_names tr = take 16 linear_sequence /\ drawings tr = [].
Proof.
  intros H Hdata Hrow.
  exec_inv H; cbn in Hdata; try discriminate Hdata.
  all: injection Hdata as ->.
  all: match goal with E : max_axis1 _ = _ |- _ =>
         rewrite (max_axis1_empty_row _ Hrow) in E;
         try discriminate E; injection E as <- end.
  split; [exact H |]. split; reflexivity.
Qed.

Lemma empty_row_raises_before_any_figure_witness :
  @Raised Outputs max_error = Raised max_error /\
  call_names Edge.trace_no_samples = take 16 linear_sequence /\
  drawings Edge.trace_no_samples = [].
Proof.
  apply (empty_row_raises_before_any_figure Edge.trace_no_samples _ [[]; []]
           exec_no_samples).
  - vm_compute. reflexivity.
  - apply list_elem_of_here.
Defined.

Lemma exec_1d : exec script Edge.trace_1d (Raised shape_error).
Proof. apply run_exec_outcome. vm_compute. reflexivity. Qed.

(** X5.  Lines 130-131: after the layout has been read, the conversion to
    pixels raises exactly when the snapshot image has fewer than two
    dimensions, with [IndexError], and then [read_layout] was the last call;
    for an image of two or more dimensions the script goes on to the second
    [plt.subplots]. *)
Theorem pixel_conversion_needs_two_dimensions
    (tr : list Event) (o : Outcome Outputs)
    (fig : Ref KFigure3D) (montage : Ref KMontage)
    (xy : gmap string Pos2) (im : Image) (lt : Layout) :
  exec script tr o ->
  tr !! 10%nat ≫= event_snapshot = Some (fig, montage, inr (xy, im)) ->
  tr !! 23%nat ≫= event_layout = Some (inr lt) ->
  ((length (shape im) < 2)%nat ->
     o = Raised shape_error /\ call_names tr = take 24 linear_sequence) /\
  ((2 <= length (shape im))%nat ->
     call_names tr !! 24%nat = Some "plt.subplots").
Proof.
  intros H Hxy Hlt.
  exec_inv H; cbn in Hxy, Hlt; try discriminate Hxy; try discriminate Hlt.
  all: injection Hxy as _ _ _ ->; injection Hlt as ->.
  all: split; intros Hlen.
  all: match goal with E : layout_to_pixels _ _ = _ |- _ =>
         first
           [ rewrite (layout_to_pixels_short _ _ Hlen) in E
           | destruct (layout_to_pixels_total lt im Hlen) as (x' & y' & Hok & _);
             rewrite Hok in E ] end.
  all: try match goal with E : inl _ = inr _ |- _ => discriminate E end.
  all: try match goal with E : inr _ = inl _ |- _ => discriminate E end.
  all: try match goal with E : inl _ = inl _ |- _ => injection E as <- end.
  all: first [ reflexivity | split; [exact H | reflexivity] ].
Qed.

Lemma pixel_conversion_needs_two_dimensions_witness :
  ((length (shape (mkImage [5]%nat [])) < 2)%nat ->
     @Raised Outputs shape_error = Raised shape_error /\
     call_names Edge.trace_1d = take 24 linear_sequence) /\
  ((2 <= length (shape (mkImage [5]%nat [])))%nat ->
     call_names Edge.trace_1d !! 24%nat = Some "plt.subplots").
Proof.
  eapply (pixel_conversion_needs_two_dimensions Edge.trace_1d _
            (mkRef 0) (mkRef 0) _ (mkImage [5]%nat []) Demo.layout exec_1d).
  - vm_compute. reflexivity.
  - vm_compute. reflexivity.
Defined.







(** X9.  When no library call raises, the script can fail at three places
    only: line 82 ([KeyError] of a channel name, or [ValueError] of an empty
    [np.vstack]) after twelve calls, line 87 (zero-size [ValueError]) after
    sixteen calls, line 130 ([IndexError]) after twenty-four calls. *)
Theorem script_fails_only_at_three_lines (tr : list Event) (e : Exn) :
  exec script tr (Raised e) ->
  (forall ev, In ev tr -> event_exn ev = None) ->
  (call_names tr = take 12 linear_sequence /\
     ((exists ch, e = KeyError ch) \/ e = vstack_error)) \/
  (call_names tr = take 16 linear_sequence /\ e = max_error) \/
  (call_names tr = take 24 linear_sequence /\ e = shape_error).
Proof.
  intros H Hquiet.
  exec_inv H; injection H as ->.
  all: try match type of Hquiet with
           | forall ev, In ev ?l -> _ =>
               match l with
               | context [Ev ?c (inl ?x)] =>
                   specialize (Hquiet (Ev c (inl x)) ltac:(solve_In));
                   discriminate Hquiet
               end
           end.
  - left. split; [reflexivity |].
    match goal with E : res_bind _ _ = inl _ |- _ =>
      apply xy_pts_inl_exact in E as [(ch & _ & _ & ->) | [_ ->]] end;
      [left; eauto | right; reflexivity].
  - right. left. split; [reflexivity |].
    match goal with E : max_axis1 _ = inl _ |- _ =>
      apply max_axis1_inl_exact in E as [_ ->] end. reflexivity.
  - right. right. split; [reflexivity |].
    match goal with E : layout_to_pixels _ _ = inl _ |- _ =>
      apply layout_to_pixels_inl_exact in E as [_ ->] end. reflexivity.
Qed.

Lemma script_fails_only_at_three_lines_witness :
  (call_names Edge.trace_no_grid = take 12 linear_sequence /\
     ((exists ch, vstack_error = KeyError ch) \/ vstack_error = vstack_error)) \/
  (call_names Edge.trace_no_grid = take 16 linear_sequence /\ vstack_error = max_error) \/
  (call_names Edge.trace_no_grid = take 24 linear_sequence /\ vstack_error = shape_error).
Proof.
  exact (script_fails_only_at_three_lines Edge.trace_no_grid vstack_error
           exec_no_grid trace_no_grid_quiet).
Defined.

(** X10.  In complete executions [xy_pts] depends on the positions of the
    snapshot and on [raw.ch_names] only, [beta_power] on what [get_data]
    returned only, and [x], [y] on the layout and on the shape of the
    snapshot image only. *)
Theorem outputs_depend_on_their_inputs_only
    (tr1 tr2 : list Event) (out1 out2 : Outputs) :
  exec script tr1 (Done out1) -> exec script tr2 (Done out2) ->
  (tr1 !! 10%nat ≫= event_xy = tr2 !! 10%nat ≫= event_xy ->
   tr1 !! 11%nat ≫= event_names = tr2 !! 11%nat ≫= event_names ->
   out_xy_pts out1 = out_xy_pts out2) /\
  (tr1 !! 15%nat ≫= event_data = tr2 !! 15%nat ≫= event_data ->
   out_beta_power out1 = out_beta_power out2) /\
  (fmap shape (tr1 !! 10%nat ≫= event_image) = fmap shape (tr2 !! 10%nat ≫= event_image) ->
   tr1 !! 23%nat ≫= event_layout = tr2 !! 23%nat ≫= event_layout ->
   out_x out1 = out_x out2 /\ out_y out1 = out_y out2).
Proof.
  intros H1 H2. exec_inv H1. injection H1 as ->. exec_inv H2. injection H2 as ->.
  cbn [out_xy_pts out_beta_power out_x out_y].
  split; [| split].
  - cbn. intros Hxy Hnames. injection Hxy as ->. injection Hnames as ->. congruence.
  - cbn. intros Hdata. injection Hdata as ->. congruence.
  - cbn. intros Hshape Hlt. injection Hshape as Hshape. injection Hlt as ->.
    repeat match goal with E : layout_to_pixels _ _ = _ |- _ =>
      unfold layout_to_pixels in E; revert E end.
    rewrite Hshape. intros Ea Eb. rewrite Ea in Eb. injection Eb as <- <-.
    split; reflexivity.
Qed.

Lemma exec_other : exec script Edge.trace_other (Done Edge.outputs_other).
Proof. apply run_exec_outcome. vm_compute. reflexivity. Qed.

Lemma outputs_depend_on_their_inputs_only_witness :
  (Demo.trace !! 10%nat ≫= event_xy = Edge.trace_other !! 10%nat ≫= event_xy ->
   Demo.trace !! 11%nat ≫= event_names = Edge.trace_other !! 11%nat ≫= event_names ->
   out_xy_pts Demo.outputs = out_xy_pts Edge.outputs_other) /\
  (Demo.trace !! 15%nat ≫= event_data = Edge.trace_other !! 15%nat ≫= event_data ->
   out_beta_power Demo.outputs = out_beta_power Edge.outputs_other) /\
  (fmap shape (Demo.trace !! 10%nat ≫= event_image)
     = fmap shape (Edge.trace_other !! 10%nat ≫= event_image) ->
   Demo.trace !! 23%nat ≫= event_layout = Edge.trace_other !! 23%nat ≫= event_layout ->
   out_x Demo.outputs = out_x Edge.outputs_other /\
   out_y Demo.outputs = out_y Edge.outputs_other).
Proof.
  exact (outputs_depend_on_their_inputs_only Demo.trace Edge.trace_other
           Demo.outputs Edge.outputs_other demo_exec exec_other).
Defined.










